(** * app.py: document question answering front-end

    A shallow embedding of [app.py]: the upload filter [allowed_file], the
    model registries, the reference extractor [extract_references], the answer
    generator [generate_answer] and the two request handlers [process] and
    [health_check], followed by the properties proved about them.

    Conventions of the embedding.
    - A Python [str] is a [string] whose characters are the code points
      0..255; the character classes of [re] and [str.lower] are the ones
      CPython uses on that range.
    - A call that may raise returns a [result]; an exception records whether
      its class derives from [Exception], which is what the handler of
      [generate_answer] tests.
    - The calls that leave the program (tokenizer, model, logging, file save)
      are recorded in a trace of [event]s, in program order. *)

From Stdlib Require Import Ascii String QArith.
From stdpp Require Import gmap strings list.
From Equations Require Import Equations.

Local Open Scope char_scope.

(** ** Python strings *)

Definition LF : ascii := "010".

(** The text [s] seen as the sequence of its characters. *)
Abbreviation chars := String.list_ascii_of_string.
Abbreviation of_chars := String.string_of_list_ascii.

(** [s.startswith(needle)]. *)
Fixpoint starts_with (needle s : list ascii) : bool :=
  match needle, s with
  | [], _ => true
  | a :: needle', b :: s' => if decide (a = b) then starts_with needle' s' else false
  | _ :: _, [] => false
  end.

(** ** The reference pattern

    [references_pattern = r"(\[\d+\]\s.+?)(?=\n\n|\Z)"], compiled with
    [re.MULTILINE | re.DOTALL].  [re.MULTILINE] only changes [^] and [$],
    which the pattern does not use; [re.DOTALL] lets [.] match every
    character, the newline included. *)

(** [\d] on code points 0..255. *)
Definition is_digit (c : ascii) : bool :=
  let n := nat_of_ascii c in (48 <=? n)%nat && (n <=? 57)%nat.

(** [\s] on code points 0..255: tab to carriage return, the four
    separators 28..31, space, NEL (133) and no-break space (160). *)
Definition is_space (c : ascii) : bool :=
  let n := nat_of_ascii c in
  ((9 <=? n)%nat && (n <=? 13)%nat) || ((28 <=? n)%nat && (n <=? 32)%nat)
  || (n =? 133)%nat || (n =? 160)%nat.

(** The greedy [\d+]: the longest run of digits and what follows it. *)
Fixpoint span_digits (s : list ascii) : list ascii * list ascii :=
  match s with
  | c :: s' =>
      if is_digit c then let '(ds, r) := span_digits s' in (c :: ds, r)
      else ([], s)
  | [] => ([], [])
  end.

(** The lookahead [(?=\n\n|\Z)] at the front of [s]. *)
Definition lookahead (s : list ascii) : bool :=
  starts_with [LF; LF] s || bool_decide (s = []).

(** The rest of the lazy [.+?] once its first character is consumed: extend
    one character at a time until the lookahead holds.  Returns the
    characters consumed and the remaining input. *)
Fixpoint lazy_dots (s : list ascii) : list ascii * list ascii :=
  match s with
  | [] => ([], [])
  | c :: s' =>
      if lookahead s then ([], s)
      else let '(m, r) := lazy_dots s' in (c :: m, r)
  end.

(** One attempt of the pattern at the front of [s]: group 1 and the input
    left after it.  [\d+] cannot give back a digit to [\]], and the lazy
    part succeeds at the end of input at the latest, so the attempt is
    deterministic. *)
Definition match_at (s : list ascii) : option (list ascii * list ascii) :=
  match s with
  | a :: s1 =>
      match span_digits s1 with
      | (d :: ds, b :: w :: c :: s3) =>
          if bool_decide (a = "[") && bool_decide (b = "]") && is_space w then
            let '(m, r) := lazy_dots s3 in
            Some (a :: (d :: ds) ++ b :: w :: c :: m, r)
          else None
      | _ => None
      end
  | [] => None
  end.

(** Case analysis on a value that keeps the equation with it. *)
Definition inspect {A : Type} (x : A) : {y : A | x = y} := exist _ x eq_refl.

(** [re.findall]: scan from the left; after a match resume where it ended
    (matches of this pattern are never empty), after a failed attempt move
    one character on. *)
Equations? findall (s : list ascii) : list (list ascii) by wf (length s) lt :=
  findall [] := [];
  findall (c :: s') with inspect (match_at (c :: s')) := {
    | exist _ (Some (m, r)) H := m :: findall r;
    | exist _ None _ := findall s' }.
Proof.
  (* a match consumes at least its first character *)
  clear findall.
  assert (Hdots : forall t, length (lazy_dots t).2 <= length t).
  { induction t as [|x t IH]; simpl; [lia|].
    destruct (lookahead (x :: t)); simpl; [lia|].
    destruct (lazy_dots t); simpl in *; lia. }
  assert (Hspan : forall t, length (span_digits t).2 <= length t).
  { induction t as [|x t IH]; simpl; [lia|].
    destruct (is_digit x); simpl; [|lia].
    destruct (span_digits t); simpl in *; lia. }
  specialize (Hspan s').
  destruct (span_digits s') as [[|d ds] [|b [|w [|x s3]]]]; try done.
  destruct (_ && _); [|done].
  specialize (Hdots s3).
  destruct (lazy_dots s3). injection H as <- <-. simpl in *. lia.
Qed.

Local Close Scope char_scope.

(** ** Exceptions and results *)

(** A raised exception: the name of its class, whether the class derives
    from [Exception] (as opposed to [BaseException] only, like
    [KeyboardInterrupt] and [SystemExit]), and [str(e)]. *)
Record exn := Exn {
  exn_class : string;
  exn_is_Exception : bool;
  exn_str : string }.

Inductive result (A : Type) : Type :=
| Ret (a : A)
| Raise (e : exn).
Arguments Ret {A} a.
Arguments Raise {A} e.

#[global] Instance result_ret : MRet result := fun A a => Ret a.
#[global] Instance result_bind : MBind result := fun A B k r =>
  match r with
  | Ret a => k a
  | Raise e => Raise e
  end.

(** [repr] of a [str], which is what [str(KeyError(key))] prints. *)
Definition hex_digit (n : nat) : ascii :=
  nth n (chars "0123456789abcdef") "0"%char.

Definition is_printable (c : ascii) : bool :=
  let n := nat_of_ascii c in
  ((32 <=? n)%nat && (n <? 127)%nat) || ((161 <=? n)%nat && negb (n =? 173)%nat).

Definition backslash : ascii := "092"%char.
Definition single_quote : ascii := "039"%char.
Definition double_quote : ascii := "034"%char.

Definition repr_char (quote c : ascii) : list ascii :=
  let n := nat_of_ascii c in
  if bool_decide (c = quote) || bool_decide (c = backslash) then [backslash; c]
  else if bool_decide (c = "009"%char) then [backslash; "t"%char]
  else if bool_decide (c = LF) then [backslash; "n"%char]
  else if bool_decide (c = "013"%char) then [backslash; "r"%char]
  else if is_printable c then [c]
  else [backslash; "x"%char; hex_digit (n / 16); hex_digit (n mod 16)].

Definition repr (s : string) : string :=
  let cs := chars s in
  let quote : ascii :=
    if bool_decide (single_quote ∈ cs) && negb (bool_decide (double_quote ∈ cs))
    then double_quote else single_quote in
  of_chars (quote :: concat (repr_char quote <$> cs) ++ [quote]).

Definition KeyError (key : string) : exn := Exn "KeyError" true (repr key).
Definition TypeError (msg : string) : exn := Exn "TypeError" true msg.
Definition IndexError (msg : string) : exn := Exn "IndexError" true msg.

(** [d[key]] on a dict with [str] keys. *)
Definition getitem {V : Type} (d : gmap string V) (key : string) : result V :=
  match d !! key with
  | Some v => Ret v
  | None => Raise (KeyError key)
  end.

(** [f"{v}"] for a value that is a [str] or [None]. *)
Definition format (v : option string) : string :=
  match v with
  | Some s => s
  | None => "None"
  end.

(** Truth value of a [str] or [None]. *)
Definition truthy (v : option string) : bool :=
  match v with
  | Some s => negb (bool_decide (s = ""%string))
  | None => false
  end.

(** ** The transformers interface

    The pretrained tokenizers and models are loaded from outside the
    program; each is described by the functions the program calls on it. *)

Definition token := nat.

(** The keyword arguments of [model.generate]. *)
Record GenerationConfig := {
  max_length : nat;
  min_length : nat;
  num_beams : nat;
  length_penalty : Q;
  early_stopping : bool }.

(** A tokenizer: the ids of a text before special tokens are added, the
    special tokens put before and after them, and [decode]. *)
Record Tokenizer := {
  tokenize : string -> result (list token);
  prefix_tokens : list token;
  suffix_tokens : list token;
  decode : list token -> bool -> result string }.

(** [tokenizer.encode(text, truncation=..., max_length=...)], the batch
    dimension of [return_tensors="pt"] left out: with truncation on, ids are removed from the right end of the text's ids (the
    library's default truncation side) until the sequence, special tokens
    included, fits [max_len]. *)
Definition encode (tk : Tokenizer) (text : string)
    (truncation : bool) (max_len : nat) : result (list token) :=
  ids ← tokenize tk text;
  let room := max_len - (length (prefix_tokens tk) + length (suffix_tokens tk)) in
  let kept := if truncation then take room ids else ids in
  mret (prefix_tokens tk ++ kept ++ suffix_tokens tk).

(** A model: [generate] returns a batch of token sequences. *)
Record Model := {
  generate : list token -> GenerationConfig -> result (list (list token)) }.

(** [outputs[0]]. *)
Definition first_output (outputs : list (list token)) : result (list token) :=
  match outputs with
  | o :: _ => Ret o
  | [] => Raise (IndexError "index 0 is out of bounds for dimension 0 with size 0")
  end.

(** What [from_pretrained] returns for each model identifier. *)
Record Hub := {
  AutoTokenizer_from_pretrained : string -> Tokenizer;
  AutoModelForSeq2SeqLM_from_pretrained : string -> Model;
  AutoModelForCausalLM_from_pretrained : string -> Model }.

(** ** Effects *)

(** An uploaded file as the handler sees it. *)
Record FileStorage := { filename : string }.

Inductive event : Type :=
| CallEncode (model_name input_text : string) (truncation : bool) (max_len : nat)
| CallGenerate (model_name : string) (inputs : list token) (cfg : GenerationConfig)
| CallDecode (model_name : string) (ids : list token) (skip_special_tokens : bool)
| LogError (msg : string)
| SaveFile (file : FileStorage) (filepath : string).

(** A computation: the trace of calls it made and how it ended. *)
Definition M (A : Type) : Type := (list event * result A)%type.

#[global] Instance M_ret : MRet M := fun A a => ([], Ret a).
#[global] Instance M_bind : MBind M := fun A B k m =>
  match m with
  | (tr, Ret a) => let '(tr', r) := k a in (tr ++ tr', r)
  | (tr, Raise e) => (tr, Raise e)
  end.

Definition trace {A : Type} (m : M A) : list event := m.1.
Definition outcome {A : Type} (m : M A) : result A := m.2.

(** A step that makes no call. *)
Definition pure_step {A : Type} (r : result A) : M A := ([], r).

(** A call to the outside, recorded before its result is known. *)
Definition call {A : Type} (ev : event) (r : result A) : M A := ([ev], r).

(** [try: body  except Exception as e: handler e]. *)
Definition try_except_Exception {A : Type} (body : M A) (handler : exn -> M A) : M A :=
  match body with
  | (tr, Raise e) =>
      if exn_is_Exception e then let '(tr', r) := handler e in (tr ++ tr', r)
      else (tr, Raise e)
  | (tr, Ret a) => (tr, Ret a)
  end.

(** ** The program *)

Definition UPLOAD_FOLDER : string := "uploads".
Definition ALLOWED_EXTENSIONS : gset string := {[ "pdf"; "txt" ]}.

(** [str.lower] on code points 0..255. *)
Definition lower_char (c : ascii) : ascii :=
  let n := nat_of_ascii c in
  if ((65 <=? n)%nat && (n <=? 90)%nat)
     || ((192 <=? n)%nat && (n <=? 222)%nat && negb (n =? 215)%nat)
  then ascii_of_nat (n + 32) else c.

Definition lower (s : string) : string := of_chars (lower_char <$> chars s).

(** [s.rsplit('.', 1)[1]] when [s] has a dot: what follows the last one. *)
Fixpoint after_last_dot (s : list ascii) : option (list ascii) :=
  match s with
  | [] => None
  | c :: s' =>
      match after_last_dot s' with
      | Some ext => Some ext
      | None => if bool_decide (c = "."%char) then Some s' else None
      end
  end.

Definition allowed_file (filename : string) : bool :=
  match after_last_dot (chars filename) with
  | Some ext => bool_decide (lower (of_chars ext) ∈ ALLOWED_EXTENSIONS)
  | None => false
  end.

Definition MODEL_NAMES : gmap string string :=
  {[ "bart" := "facebook/bart-large-cnn";
     "gpt2" := "gpt2";
     "gpt_neo" := "EleutherAI/gpt-neo-2.7B" ]}.

(** ** Requests and responses *)

(** [bool(uploaded_file)]: werkzeug's [FileStorage.__bool__] is
    [bool(self.filename)], so the nameless part a browser sends when no file
    is chosen counts as no file. *)
Definition FileStorage_bool (f : FileStorage) : bool :=
  negb (bool_decide (filename f = "")).

Definition file_truthy (uploaded_file : option FileStorage) : bool :=
  match uploaded_file with
  | Some f => FileStorage_bool f
  | None => false
  end.

(** The fields of a request that [process] reads: [request.form.get] and
    [request.files.get] give [None] for a missing field. *)
Record Request := {
  form_question : option string;
  form_pdf_text : option string;
  files_file : option FileStorage }.

Inductive method := GET | POST.

(** A value handed to a template. *)
Inductive value :=
| VNone
| VStr (s : string)
| VList (l : list string).

Definition value_of (v : option string) : value :=
  match v with
  | Some s => VStr s
  | None => VNone
  end.

Inductive body :=
| Json (object : list (string * string))
| Html (template : string) (context : gmap string value).

Record Response := { resp_body : body; resp_status : nat }.

(** [jsonify(obj), status]. *)
Definition jsonify (object : list (string * string)) (status : nat) : Response :=
  {| resp_body := Json object; resp_status := status |}.

(** [render_template(name, **context)] returned alone: Flask answers 200. *)
Definition render_template (template : string) (context : gmap string value) : Response :=
  {| resp_body := Html template context; resp_status := 200 |}.

(** [os.path.join(a, b)] on POSIX, for a non-empty [a] without a trailing
    slash. *)
Definition os_path_join (a b : string) : string :=
  if starts_with (chars "/") (chars b) then b else a +:+ "/" +:+ b.


(** [uploaded_file and allowed_file(uploaded_file.filename)]. *)
Definition upload_accepted (uploaded_file : option FileStorage) : bool :=
  match uploaded_file with
  | Some f => FileStorage_bool f && allowed_file (filename f)
  | None => false
  end.

(** The document text a validated request is answered from. *)
Definition document_text (request : Request) : option string :=
  if upload_accepted (files_file request)
  then Some "Simulated text from PDF extraction."
  else form_pdf_text request.

(** The blank line between the question and the context of the prompt. *)
Definition newline : string := String LF "".

Section App.

(** The pretrained objects, and werkzeug's [secure_filename]. *)
Context (hub : Hub) (secure_filename : string -> string).

Definition tokenizers : gmap string Tokenizer :=
  {[ "bart" := AutoTokenizer_from_pretrained hub (MODEL_NAMES !!! "bart");
     "gpt2" := AutoTokenizer_from_pretrained hub (MODEL_NAMES !!! "gpt2");
     "gpt_neo" := AutoTokenizer_from_pretrained hub (MODEL_NAMES !!! "gpt_neo") ]}.

Definition models : gmap string Model :=
  {[ "bart" := AutoModelForSeq2SeqLM_from_pretrained hub (MODEL_NAMES !!! "bart");
     "gpt2" := AutoModelForCausalLM_from_pretrained hub (MODEL_NAMES !!! "gpt2");
     "gpt_neo" := AutoModelForCausalLM_from_pretrained hub (MODEL_NAMES !!! "gpt_neo") ]}.

(** [re.findall(references_pattern, pdf_text, ...)]: the argument must be a
    [str]. *)
Definition re_findall (text : option string) : result (list string) :=
  match text with
  | Some s => Ret (of_chars <$> findall (chars s))
  | None => Raise (TypeError "expected string or bytes-like object, got 'NoneType'")
  end.

Definition extract_references (pdf_text : option string) : result (list string) :=
  matches ← re_findall pdf_text;
  mret (match matches with
        | [] => ["No references found."]
        | _ :: _ => matches
        end).

(** The prompt of [generate_answer]. *)
Definition input_text (pdf_text question : option string) : string :=
  "Research Question: " +:+ format question +:+ newline +:+ newline
  +:+ "Context: " +:+ format pdf_text.

(** The length every prompt is truncated to, whatever the model. *)
Definition ENCODE_MAX_LENGTH : nat := 1024.

Definition generation_config (max_length min_length : nat) : GenerationConfig :=
  {| max_length := max_length;
     min_length := min_length;
     num_beams := 5;
     length_penalty := 3 # 2;
     early_stopping := true |}.

(** The body of the [try] block of [generate_answer]. *)
Definition generate_answer_try (model_name : string)
    (pdf_text question : option string) (max_length min_length : nat) : M string :=
  model ← pure_step (getitem models model_name);
  tokenizer ← pure_step (getitem tokenizers model_name);
  let input_text := input_text pdf_text question in
  inputs ← call (CallEncode model_name input_text true ENCODE_MAX_LENGTH)
                (encode tokenizer input_text true ENCODE_MAX_LENGTH);
  let cfg := generation_config max_length min_length in
  outputs ← call (CallGenerate model_name inputs cfg) (generate model inputs cfg);
  output ← pure_step (first_output outputs);
  answer ← call (CallDecode model_name output true) (decode tokenizer output true);
  mret answer.

Definition generate_answer (model_name : string)
    (pdf_text question : option string) (max_length min_length : nat) : M string :=
  try_except_Exception
    (generate_answer_try model_name pdf_text question max_length min_length)
    (fun e =>
       _ ← call (LogError ("Error generating answer with " +:+ model_name
                           +:+ ": " +:+ exn_str e)) (Ret tt);
       mret ("Error generating answer: " +:+ exn_str e)).

(** The defaults [max_length=1500, min_length=700]. *)
Definition DEFAULT_MAX_LENGTH : nat := 1500.
Definition DEFAULT_MIN_LENGTH : nat := 700.

(** The upload step of [process]: the value of [pdf_text] after it. *)
Definition store_upload (uploaded_file : option FileStorage)
    (pdf_text : option string) : M (option string) :=
  match uploaded_file with
  | Some f =>
      if FileStorage_bool f && allowed_file (filename f) then
        let filename := secure_filename (filename f) in
        let filepath := os_path_join UPLOAD_FOLDER filename in
        _ ← call (SaveFile f filepath) (Ret tt);
        mret (Some "Simulated text from PDF extraction.")
      else mret pdf_text
  | None => mret pdf_text
  end.

(** [process] once the request is validated: lines 83 to 102. *)
Definition answer_request (uploaded_file : option FileStorage)
    (pdf_text question : option string) : M Response :=
  pdf_text ← store_upload uploaded_file pdf_text;
  references ← pure_step (extract_references pdf_text);
  bart_answer ← generate_answer "bart" pdf_text question
                  DEFAULT_MAX_LENGTH DEFAULT_MIN_LENGTH;
  gpt2_answer ← generate_answer "gpt2" pdf_text question
                  DEFAULT_MAX_LENGTH DEFAULT_MIN_LENGTH;
  gpt_neo_answer ← generate_answer "gpt_neo" pdf_text question
                     DEFAULT_MAX_LENGTH DEFAULT_MIN_LENGTH;
  mret (render_template "result.html"
          {[ "question" := value_of question;
             "bart_answer" := VStr bart_answer;
             "gpt2_answer" := VStr gpt2_answer;
             "gpt_neo_answer" := VStr gpt_neo_answer;
             "references" := VList references ]}).

Definition process (request : Request) : M Response :=
  let question := form_question request in
  let pdf_text := form_pdf_text request in
  let uploaded_file := files_file request in
  if negb (truthy question)
     || negb (truthy pdf_text || file_truthy uploaded_file) then
    mret (jsonify [("error", "Both question and PDF text are required")] 400)
  else answer_request uploaded_file pdf_text question.

Definition index : M Response := mret (render_template "index.html" ∅).

Definition health_check : M Response :=
  mret (jsonify [("status", "running")] 200).

(** The [@app.route] table: the view registered for a method and path, if
    this file registers one. *)
Definition route (m : method) (path : string) : option (Request -> M Response) :=
  match m with
  | GET =>
      if bool_decide (path = "/") then Some (fun _ => index)
      else if bool_decide (path = "/health") then Some (fun _ => health_check)
      else None
  | POST =>
      if bool_decide (path = "/process") then Some process else None
  end.

End App.

(** The keys of the two registries. *)
Definition configured_keys : gset string := {[ "bart"; "gpt2"; "gpt_neo" ]}.


Arguments tokenizers hub : assert.
Arguments models hub : assert.

(** ** Documents with a reference list *)

(** A blank line, [\n\n], somewhere in [s]. *)
Fixpoint has_blank_line (s : list ascii) : bool :=
  match s with
  | [] => false
  | _ :: s' => starts_with [LF; LF] s || has_blank_line s'
  end.

(** [s] begins with a bracketed integer label followed by a whitespace
    character, [\[\d+\]\s]: what comes after them. *)
Definition after_label (s : list ascii) : option (list ascii) :=
  match s with
  | a :: s1 =>
      match span_digits s1 with
      | (_ :: _, b :: w :: rest) =>
          if bool_decide (a = "["%char) && bool_decide (b = "]"%char) && is_space w
          then Some rest else None
      | _ => None
      end
  | [] => None
  end.

(** The pattern matches at no position of [s]. *)
Fixpoint matches_nowhere (s : list ascii) : bool :=
  match s with
  | [] => true
  | _ :: s' => bool_decide (match_at s = None) && matches_nowhere s'
  end.



(** A document is a sequence of blocks separated by blank lines; a block is
    a reference entry or other text. *)
Inductive block :=
| Entry (e : string)
| Prose (p : string).

Definition block_text (b : block) : string :=
  match b with
  | Entry e => e
  | Prose p => p
  end.


Fixpoint document (bs : list block) : string :=
  match bs with
  | [] => ""
  | b :: bs' =>
      match bs' with
      | [] => block_text b
      | _ :: _ => block_text b +:+ newline +:+ newline +:+ document bs'
      end
  end.


(** [ms] are substrings of [s] that follow one another from left to right
    without overlapping. *)
Inductive tiles : list ascii -> list (list ascii) -> Prop :=
| tiles_done s : tiles s []
| tiles_skip c s ms : tiles s ms -> tiles (c :: s) ms
| tiles_match m s ms : tiles s ms -> tiles (m ++ s) (m :: ms).

(** ** Sample collaborators

    Small tokenizers and models on which the program can be run. *)
Module Sample.

(** One token per character, with a start and an end token. *)
Definition char_tokenizer : Tokenizer :=
  {| tokenize := fun text => Ret (nat_of_ascii <$> chars text);
     prefix_tokens := [256];
     suffix_tokens := [257];
     decode := fun ids _ =>
       Ret (of_chars (ascii_of_nat <$> filter (fun n => n < 256) ids)) |}.

(** A tokenizer whose every call raises [e]. *)
Definition broken_tokenizer (e : exn) : Tokenizer :=
  {| tokenize := fun _ => Raise e;
     prefix_tokens := [];
     suffix_tokens := [];
     decode := fun _ _ => Raise e |}.

(** A model that returns its input as the only sequence of the batch. *)
Definition echo_model : Model := {| generate := fun inputs _ => Ret [inputs] |}.


Definition out_of_memory : exn :=
  Exn "OutOfMemoryError" true "CUDA out of memory.".


(** Every model works. *)
Definition hub : Hub :=
  {| AutoTokenizer_from_pretrained := fun _ => char_tokenizer;
     AutoModelForSeq2SeqLM_from_pretrained := fun _ => echo_model;
     AutoModelForCausalLM_from_pretrained := fun _ => echo_model |}.


(** Every tokenizer fails with [e]. *)
Definition hub_failing_tokenizers (e : exn) : Hub :=
  {| AutoTokenizer_from_pretrained := fun _ => broken_tokenizer e;
     AutoModelForSeq2SeqLM_from_pretrained := fun _ => echo_model;
     AutoModelForCausalLM_from_pretrained := fun _ => echo_model |}.

(** werkzeug's [secure_filename] on names that are already safe. *)
Definition secure_filename (name : string) : string := name.

Definition request_text : Request :=
  {| form_question := Some "What is the main finding?";
     form_pdf_text := Some "A short document.";
     files_file := None |}.

Definition request_docx : Request :=
  {| form_question := Some "What is the main finding?";
     form_pdf_text := None;
     files_file := Some {| filename := "paper.docx" |} |}.

Definition request_pdf : Request :=
  {| form_question := Some "What is the main finding?";
     form_pdf_text := None;
     files_file := Some {| filename := "paper.PDF" |} |}.

Definition request_no_question : Request :=
  {| form_question := None;
     form_pdf_text := Some "A short document.";
     files_file := None |}.

Definition request_question_only : Request :=
  {| form_question := Some "What is the main finding?";
     form_pdf_text := None;
     files_file := None |}.

End Sample.


(** * Properties *)

(** ** Registry lookups *)

Ltac run_M :=
  unfold mbind, mret, M_bind, M_ret, result_bind, result_ret,
    pure_step, call, try_except_Exception, outcome, trace in *;
  simpl in *.

Lemma configured_key_cases (key : string) :
  key ∈ configured_keys -> key = "bart" \/ key = "gpt2" \/ key = "gpt_neo".
Proof.
  unfold configured_keys. rewrite !elem_of_union, !elem_of_singleton. tauto.
Qed.

Lemma configured_key_intro (key : string) :
  key = "bart" \/ key = "gpt2" \/ key = "gpt_neo" -> key ∈ configured_keys.
Proof.
  unfold configured_keys. rewrite !elem_of_union, !elem_of_singleton. tauto.
Qed.

Lemma models_lookup_None hub (key : string) :
  key ∉ configured_keys -> models hub !! key = None.
Proof.
  intros Hk.
  assert (key <> "bart" /\ key <> "gpt2" /\ key <> "gpt_neo") as (H1 & H2 & H3).
  { repeat split; intros ->; apply Hk, configured_key_intro; tauto. }
  unfold models. rewrite !lookup_insert_ne by done.
  by apply lookup_singleton_ne.
Qed.

Lemma models_lookup_is_Some hub (key : string) :
  key ∈ configured_keys -> is_Some (models hub !! key).
Proof.
  intros Hk. destruct (configured_key_cases key Hk) as [->|[->| ->]];
    unfold models; simplify_map_eq; eauto.
Qed.

Lemma tokenizers_lookup_is_Some hub (key : string) :
  key ∈ configured_keys -> is_Some (tokenizers hub !! key).
Proof.
  intros Hk. destruct (configured_key_cases key Hk) as [->|[->| ->]];
    unfold tokenizers; simplify_map_eq; eauto.
Qed.

Lemma getitem_Some {V : Type} (d : gmap string V) key v :
  d !! key = Some v -> getitem d key = Ret v.
Proof. unfold getitem. by intros ->. Qed.

Lemma getitem_None {V : Type} (d : gmap string V) key :
  d !! key = None -> getitem d key = Raise (KeyError key).
Proof. unfold getitem. by intros ->. Qed.

(** ** The health endpoint *)

(** C8: a GET on [/health] is routed to a view that answers status 200 with
    the payload [{"status": "running"}] and makes no call, whatever the
    pretrained models are and whatever the request carries. *)
Theorem health_check_fixed_payload hub secure_filename (request : Request) :
  exists view,
    route hub secure_filename GET "/health" = Some view /\
    view request = ([], Ret (jsonify [("status", "running")] 200)) /\
    resp_status (jsonify [("status", "running")] 200) = 200.
Proof. exists (fun _ => health_check). repeat split. Qed.

(** ** Request validation *)

(** C6: a request without a question, and a request with neither a text
    field nor a file, both get status 400 with the error payload, and the
    trace is empty: no tokenizer or model was called. *)
Theorem process_rejects_incomplete_request hub secure_filename (request : Request) :
  form_question request = None
  \/ (form_pdf_text request = None /\ files_file request = None) ->
  process hub secure_filename request
  = ([], Ret (jsonify [("error", "Both question and PDF text are required")] 400))
  /\ resp_status (jsonify [("error", "Both question and PDF text are required")] 400) = 400.
Proof.
  intros H. split; [|reflexivity]. unfold process.
  destruct H as [-> | [-> ->]]; simpl.
  - reflexivity.
  - by rewrite orb_true_r.
Qed.

Lemma process_rejects_incomplete_request_witness :
  process Sample.hub Sample.secure_filename Sample.request_no_question
  = ([], Ret (jsonify [("error", "Both question and PDF text are required")] 400))
  /\ process Sample.hub Sample.secure_filename Sample.request_question_only
  = ([], Ret (jsonify [("error", "Both question and PDF text are required")] 400)).
Proof.
  split.
  - apply (process_rejects_incomplete_request Sample.hub Sample.secure_filename
             Sample.request_no_question).
    left. reflexivity.
  - apply (process_rejects_incomplete_request Sample.hub Sample.secure_filename
             Sample.request_question_only).
    right. split; reflexivity.
Defined.

(** ** The answer generator *)

Lemma encode_Raise tk text truncation n e :
  encode tk text truncation n = Raise e <-> tokenize tk text = Raise e.
Proof.
  unfold encode. run_M. destruct (tokenize tk text); split; congruence.
Qed.

(** What escapes the [try] block is what the handler was not written for. *)
Lemma generate_answer_Raise hub key pdf_text question mx mn e :
  outcome (generate_answer hub key pdf_text question mx mn) = Raise e ->
  exn_is_Exception e = false.
Proof.
  unfold generate_answer.
  destruct (generate_answer_try hub key pdf_text question mx mn) as [tr [a|e']];
    run_M; [done|].
  destruct (exn_is_Exception e') eqn:He'; run_M; [done|]. by intros [= <-].
Qed.






(** C10: for a model key outside the three configured ones the registry
    lookup raises [KeyError], the handler of [generate_answer] catches it,
    logs it, and the call returns ["Error generating answer: "] followed by
    the [repr] of the key; no tokenizer or model is called. *)
Theorem generate_answer_unknown_key hub (key : string) pdf_text question mx mn :
  key ∉ configured_keys ->
  generate_answer hub key pdf_text question mx mn
  = ([LogError ("Error generating answer with " +:+ key +:+ ": " +:+ repr key)],
     Ret ("Error generating answer: " +:+ repr key)).
Proof.
  intros Hk. unfold generate_answer, generate_answer_try.
  rewrite (getitem_None _ _ (models_lookup_None hub key Hk)). reflexivity.
Qed.

Lemma generate_answer_unknown_key_witness :
  generate_answer Sample.hub "t5" (Some "A short document.")
    (Some "What is the main finding?") DEFAULT_MAX_LENGTH DEFAULT_MIN_LENGTH
  = ([LogError "Error generating answer with t5: 't5'"],
     Ret "Error generating answer: 't5'").
Proof.
  apply (generate_answer_unknown_key Sample.hub "t5").
  unfold configured_keys. rewrite !elem_of_union, !elem_of_singleton.
  intros [[H|H]|H]; discriminate H.
Defined.

(** ** The request handler *)

Lemma process_validated hub secure_filename (request : Request) :
  truthy (form_question request) = true ->
  truthy (form_pdf_text request) || file_truthy (files_file request) = true ->
  process hub secure_filename request
  = answer_request hub secure_filename
      (files_file request) (form_pdf_text request) (form_question request).
Proof. unfold process. by intros -> ->. Qed.

Lemma store_upload_outcome secure_filename (request : Request) :
  outcome (store_upload secure_filename (files_file request) (form_pdf_text request))
  = Ret (document_text request).
Proof.
  unfold store_upload, document_text, upload_accepted.
  destruct (files_file request) as [f|]; [|done].
  by destruct (FileStorage_bool f && allowed_file (filename f)).
Qed.


(** C9: a request with a non-empty question, no text field, and an uploaded
    file (one with a file name, which is what makes the file object true)
    whose name [allowed_file] rejects passes validation; the upload step saves
    nothing and leaves the document text [None]; [process] goes on with that
    absent text, whose first use, the reference extraction, raises
    [TypeError]. *)
Theorem process_rejected_upload_keeps_None hub secure_filename (request : Request) f :
  truthy (form_question request) = true ->
  form_pdf_text request = None ->
  files_file request = Some f ->
  FileStorage_bool f = true ->
  allowed_file (filename f) = false ->
  store_upload secure_filename (Some f) None = ([], Ret None)
  /\ process hub secure_filename request
     = answer_request hub secure_filename (Some f) None (form_question request)
  /\ process hub secure_filename request
     = ([], Raise (TypeError "expected string or bytes-like object, got 'NoneType'")).
Proof.
  intros Hq Ht Hf Hb Ha.
  assert (Hs : store_upload secure_filename (Some f) None = ([], Ret None)).
  { unfold store_upload. by rewrite Hb, Ha. }
  assert (Hp : process hub secure_filename request
               = answer_request hub secure_filename (Some f) None (form_question request)).
  { rewrite process_validated; [by rewrite Ht, Hf | done |].
    rewrite Ht, Hf. simpl. by rewrite Hb. }
  repeat split; [done..|].
  rewrite Hp. unfold answer_request. by rewrite Hs.
Qed.

Lemma process_rejected_upload_keeps_None_witness :
  process Sample.hub Sample.secure_filename Sample.request_docx
  = ([], Raise (TypeError "expected string or bytes-like object, got 'NoneType'")).
Proof.
  apply (process_rejected_upload_keeps_None Sample.hub Sample.secure_filename
           Sample.request_docx {| filename := "paper.docx" |});
    reflexivity.
Defined.






(** ** The reference extractor *)

Lemma chars_app (a b : string) : chars (a +:+ b) = chars a ++ chars b.
Proof.
  induction a as [|c a IH]; [reflexivity|].
  change (chars (String c a +:+ b)) with (c :: chars (a +:+ b)).
  rewrite IH. reflexivity.
Qed.

Lemma findall_cons c s :
  findall (c :: s)
  = match match_at (c :: s) with
    | Some (m, r) => m :: findall r
    | None => findall s
    end.
Proof.
  funelim (findall (c :: s));
    match goal with H : match_at _ = _ |- _ => rewrite H end; reflexivity.
Qed.

Lemma findall_match s m r :
  match_at s = Some (m, r) -> findall s = m :: findall r.
Proof.
  destruct s as [|c s]; [done|]. intros H. by rewrite findall_cons, H.
Qed.

Lemma span_digits_app s ds r : span_digits s = (ds, r) -> s = ds ++ r.
Proof.
  revert ds r. induction s as [|c s IH]; intros ds r; simpl.
  - by intros [= <- <-].
  - destruct (is_digit c).
    + destruct (span_digits s) as [ds' r']. intros [= <- <-].
      simpl. f_equal. by apply IH.
    + by intros [= <- <-].
Qed.


Lemma lazy_dots_app s : s = (lazy_dots s).1 ++ (lazy_dots s).2.
Proof.
  induction s as [|c s IH]; simpl; [done|].
  destruct (lookahead (c :: s)); simpl; [done|].
  destruct (lazy_dots s) as [m r]. simpl in *. by f_equal.
Qed.

Lemma match_at_app s m r : match_at s = Some (m, r) -> s = m ++ r.
Proof.
  unfold match_at. destruct s as [|a s1]; [done|].
  destruct (span_digits s1) as [ds r1] eqn:Hs. apply span_digits_app in Hs.
  destruct ds as [|d ds]; [done|].
  destruct r1 as [|b [|w [|c s3]]]; try done.
  destruct (_ && _); [|done].
  pose proof (lazy_dots_app s3) as Hl.
  destruct (lazy_dots s3) as [m' r']. intros [= <- <-]. simpl in *.
  rewrite Hs. f_equal. f_equal. rewrite <- !app_assoc. simpl.
  rewrite Hl at 1. reflexivity.
Qed.

Lemma match_at_not_bracket a s : a <> "["%char -> match_at (a :: s) = None.
Proof.
  intros Ha. unfold match_at.
  destruct (span_digits s) as [[|d ds] [|b [|w [|c s3]]]]; try done.
  by rewrite (bool_decide_eq_false_2 _ Ha).
Qed.

(** A match needs a label, a whitespace character and one more character;
    the lazy part then decides where it ends. *)
Lemma match_at_label s c s3 :
  after_label s = Some (c :: s3) ->
  exists head,
    s = head ++ c :: s3
    /\ match_at s = Some (head ++ c :: (lazy_dots s3).1, (lazy_dots s3).2).
Proof.
  unfold match_at, after_label. destruct s as [|a s1]; [done|].
  destruct (span_digits s1) as [ds r1] eqn:Hs. apply span_digits_app in Hs.
  destruct ds as [|d ds]; [done|].
  destruct r1 as [|b [|w [|x r]]]; try done.
  - by destruct (_ && _).
  - destruct (_ && _); [|done]. intros [= -> ->].
    exists (a :: (d :: ds) ++ [b; w]). split.
    + rewrite Hs. simpl. rewrite <- app_assoc. reflexivity.
    + destruct (lazy_dots s3) as [m r]. simpl. rewrite <- app_assoc. reflexivity.
Qed.



Lemma lazy_dots_to_end s :
  has_blank_line s = false -> lazy_dots s = (s, []).
Proof.
  induction s as [|c s IH]; [done|].
  intros [H1 H2]%orb_false_elim.
  change (lazy_dots (c :: s))
    with (if lookahead (c :: s) then ([], c :: s)
          else let '(m, r) := lazy_dots s in (c :: m, r)).
  unfold lookahead. rewrite H1. simpl. by rewrite (IH H2).
Qed.


Lemma matches_nowhere_findall s : matches_nowhere s = true <-> findall s = [].
Proof.
  induction s as [|c s IH]; [by simp findall|].
  change (matches_nowhere (c :: s))
    with (bool_decide (match_at (c :: s) = None) && matches_nowhere s).
  rewrite findall_cons, andb_true_iff, bool_decide_eq_true, IH.
  destruct (match_at (c :: s)) as [[m r]|].
  - split; [by intros [? _]|done].
  - split; [by intros [_ ?]|done].
Qed.

Lemma match_at_is_Some s :
  is_Some (match_at s) <-> exists c r, after_label s = Some (c :: r).
Proof.
  unfold match_at, after_label. destruct s as [|a s1].
  { split; [by intros [? ?]|by intros (? & ? & ?)]. }
  destruct (span_digits s1) as [[|d ds] [|b [|w [|c s3]]]];
    try (split; [by intros [? ?]|by intros (? & ? & ?)]).
  - destruct (_ && _); (split; [by intros [? ?]|by intros (? & ? & ?)]).
  - destruct (_ && _).
    + destruct (lazy_dots s3). split; eauto.
    + split; [by intros [? ?]|by intros (? & ? & ?)].
Qed.












Lemma findall_tiles s : tiles s (findall s).
Proof.
  funelim (findall s).
  - constructor.
  - match goal with H : match_at _ = Some _ |- _ =>
      rewrite (match_at_app _ _ _ H) end.
    by constructor.
  - by constructor.
Qed.






(** C3: when the pattern matches at no position of the text, which is the
    case of the empty text, [extract_references] returns exactly
    [["No references found."]]; and for no text is the returned sequence
    empty. *)
Theorem extract_references_no_match (text : string) :
  (matches_nowhere (chars text) = true ->
   extract_references (Some text) = Ret ["No references found."])
  /\ extract_references (Some "") = Ret ["No references found."]
  /\ exists first others, extract_references (Some text) = Ret (first :: others).
Proof.
  unfold extract_references, re_findall. run_M. repeat split.
  - intros ->%matches_nowhere_findall. reflexivity.
  - destruct (findall (chars text)) as [|m ms]; simpl; eauto.
Qed.

Lemma extract_references_no_match_witness :
  extract_references (Some "See [Smith 2020] and [12]. No list [3]")
  = Ret ["No references found."].
Proof.
  refine (proj1 (extract_references_no_match
                   "See [Smith 2020] and [12]. No list [3]") _).
  vm_compute. reflexivity.
Defined.









(** * Further properties *)

(** ** The upload filter *)

Lemma after_last_dot_no_dot s :
  bool_decide ("."%char ∈ s) = false -> after_last_dot s = None.
Proof.
  intros H%bool_decide_eq_false. induction s as [|c s IH]; [done|]. simpl.
  rewrite IH by (intros Hs; apply H; by right).
  rewrite bool_decide_eq_false_2; [done|]. intros ->. apply H. by left.
Qed.

Lemma after_last_dot_app stem ext :
  bool_decide ("."%char ∈ ext) = false ->
  after_last_dot (stem ++ "."%char :: ext) = Some ext.
Proof.
  intros H. induction stem as [|c stem IH]; simpl.
  - by rewrite (after_last_dot_no_dot _ H).
  - by rewrite IH.
Qed.

Lemma lower_char_dot c : lower_char c = "."%char <-> c = "."%char.
Proof.
  destruct c as [[] [] [] [] [] [] [] []]; vm_compute; split; congruence.
Qed.

Lemma lower_char_idempotent c : lower_char (lower_char c) = lower_char c.
Proof. by destruct c as [[] [] [] [] [] [] [] []]. Qed.

Lemma after_last_dot_lower s :
  after_last_dot (lower_char <$> s) = fmap (M := list) lower_char <$> after_last_dot s.
Proof.
  induction s as [|c s IH]; [done|].
  rewrite fmap_cons. simpl. rewrite IH.
  destruct (after_last_dot s) as [ext|]; [done|]. simpl.
  destruct (decide (c = "."%char)) as [->|Hc].
  - by rewrite !bool_decide_eq_true_2.
  - rewrite !bool_decide_eq_false_2; [done|done|]. by rewrite lower_char_dot.
Qed.

Lemma chars_of_chars l : chars (of_chars l) = l.
Proof. apply String.list_ascii_of_string_of_list_ascii. Qed.

Lemma of_chars_chars_string s : of_chars (chars s) = s.
Proof. apply String.string_of_list_ascii_of_string. Qed.

(** X1: only what follows the last dot of the file name counts, and it is
    compared without regard to case: a name [stem.ext], where [ext] holds no
    dot, is allowed exactly when [ext] in lower case is [pdf] or [txt],
    whatever the stem (the empty stem and stems with dots included). *)
Theorem allowed_file_last_extension (stem ext : string) :
  bool_decide ("."%char ∈ chars ext) = false ->
  allowed_file (stem +:+ "." +:+ ext)
  = bool_decide (lower ext ∈ ALLOWED_EXTENSIONS).
Proof.
  intros Hext. unfold allowed_file. rewrite !chars_app.
  change (chars "." ++ chars ext) with ("."%char :: chars ext).
  by rewrite (after_last_dot_app _ _ Hext), of_chars_chars_string.
Qed.

Lemma allowed_file_last_extension_witness :
  allowed_file ("report.pdf" +:+ "." +:+ "exe") = false
  /\ allowed_file ("archive.tar" +:+ "." +:+ "TxT") = true.
Proof.
  split.
  - rewrite (allowed_file_last_extension "report.pdf" "exe"); reflexivity.
  - rewrite (allowed_file_last_extension "archive.tar" "TxT"); reflexivity.
Defined.

(** X2: a file name without a dot is never allowed, however it is spelled;
    in particular the bare names [pdf] and [txt] and the empty name are
    rejected. *)
Theorem allowed_file_needs_dot (name : string) :
  bool_decide ("."%char ∈ chars name) = false -> allowed_file name = false.
Proof.
  intros H. unfold allowed_file. by rewrite (after_last_dot_no_dot _ H).
Qed.

Lemma allowed_file_needs_dot_witness : allowed_file "pdf" = false.
Proof. apply (allowed_file_needs_dot "pdf"). reflexivity. Defined.

(** X3: the filter does not depend on the case of the file name: a name and
    its lower-case form are allowed or rejected together. *)
Theorem allowed_file_case_insensitive (name : string) :
  allowed_file (lower name) = allowed_file name.
Proof.
  unfold allowed_file, lower at 1. rewrite chars_of_chars, after_last_dot_lower.
  destruct (after_last_dot (chars name)) as [ext|]; [|done]. simpl.
  assert (lower (of_chars (lower_char <$> ext)) = lower (of_chars ext)) as ->;
    [|done].
  unfold lower. rewrite !chars_of_chars, <- list_fmap_compose.
  f_equal. apply list_fmap_ext. intros _ c _. apply lower_char_idempotent.
Qed.

(** X4: an allowed file name is never empty, so an uploaded file whose name
    is allowed is always a true file object: for a file that is present, the
    test [uploaded_file and allowed_file(uploaded_file.filename)] is decided
    by [allowed_file] alone. *)
Theorem upload_accepted_allowed_file (f : FileStorage) :
  upload_accepted (Some f) = allowed_file (filename f)
  /\ (allowed_file (filename f) = true -> FileStorage_bool f = true).
Proof.
  assert (H : allowed_file (filename f) = true -> FileStorage_bool f = true).
  { unfold FileStorage_bool. destruct (filename f); [done|]. intros _.
    by rewrite bool_decide_eq_false_2. }
  split; [|exact H]. unfold upload_accepted.
  destruct (allowed_file (filename f)); [by rewrite H|apply andb_false_r].
Qed.

Lemma upload_accepted_allowed_file_witness :
  FileStorage_bool {| filename := "paper.PDF" |} = true.
Proof.
  refine (proj2 (upload_accepted_allowed_file {| filename := "paper.PDF" |}) _).
  reflexivity.
Defined.

(** ** More on the reference extractor *)

Lemma span_digits_digits s : forallb is_digit (span_digits s).1 = true.
Proof.
  induction s as [|c s IH]; [done|]. simpl.
  destruct (is_digit c) eqn:Hc; [|done].
  destruct (span_digits s). simpl in *. by rewrite Hc.
Qed.

Lemma span_digits_stop ds b r :
  forallb is_digit ds = true ->
  is_digit b = false ->
  span_digits (ds ++ b :: r) = (ds, b :: r).
Proof.
  intros Hds Hb. induction ds as [|d ds IH]; simpl.
  - by rewrite Hb.
  - simpl in Hds. apply andb_prop in Hds as [-> Hds]. by rewrite (IH Hds).
Qed.

(** The shape of a text that starts with a label and a whitespace
    character. *)
Lemma after_label_shape s rest :
  after_label s = Some rest <->
  exists d ds w,
    forallb is_digit (d :: ds) = true /\ is_space w = true
    /\ s = "["%char :: (d :: ds) ++ "]"%char :: w :: rest.
Proof.
  split.
  - unfold after_label. destruct s as [|a s1]; [done|].
    pose proof (span_digits_digits s1) as Hd.
    destruct (span_digits s1) as [ds r1] eqn:Hs. apply span_digits_app in Hs.
    destruct ds as [|d ds]; [done|].
    destruct r1 as [|b [|w r]]; try done.
    destruct (bool_decide (a = "["%char)) eqn:Ha; [|done].
    destruct (bool_decide (b = "]"%char)) eqn:Hb; [|done].
    destruct (is_space w) eqn:Hw; [|done]. simpl.
    apply bool_decide_eq_true in Ha as ->. apply bool_decide_eq_true in Hb as ->.
    intros [= <-]. exists d, ds, w. by rewrite Hs.
  - intros (d & ds & w & Hd & Hw & ->). unfold after_label.
    rewrite (span_digits_stop (d :: ds) "]"%char (w :: rest) Hd eq_refl).
    by rewrite Hw.
Qed.

Lemma lazy_dots_no_blank_line s : has_blank_line (lazy_dots s).1 = false.
Proof.
  induction s as [|c s IH]; [done|].
  change (lazy_dots (c :: s))
    with (if lookahead (c :: s) then ([], c :: s)
          else let '(m, r) := lazy_dots s in (c :: m, r)).
  destruct (lookahead (c :: s)) eqn:Hl; [done|].
  pose proof (lazy_dots_app s) as Happ.
  destruct (lazy_dots s) as [m r]. simpl in *. rewrite IH, orb_false_r.
  unfold lookahead in Hl. apply orb_false_elim in Hl as [Hl _].
  destruct m as [|x m]; [by destruct (decide (LF = c))|].
  rewrite Happ in Hl. exact Hl.
Qed.

(** What the pattern matched, matched again on its own, is matched whole. *)
Lemma match_at_matched s m r :
  match_at s = Some (m, r) -> match_at m = Some (m, []).
Proof.
  intros Hm.
  assert (Hs : exists c s3, after_label s = Some (c :: s3)).
  { apply match_at_is_Some. by rewrite Hm. }
  destruct Hs as (c & s3 & Hs).
  destruct (match_at_label _ _ _ Hs) as (head & Hsplit & Hm').
  rewrite Hm in Hm'. injection Hm' as -> ->.
  apply after_label_shape in Hs as (d & ds & w & Hd & Hw & Hshape).
  assert (Hhead : head = "["%char :: (d :: ds) ++ ["]"%char; w]).
  { apply (app_inv_tail (c :: s3)). rewrite <- Hsplit, Hshape.
    simpl. rewrite <- app_assoc. reflexivity. }
  assert (Hlabel : after_label (head ++ c :: (lazy_dots s3).1)
                   = Some (c :: (lazy_dots s3).1)).
  { apply after_label_shape. exists d, ds, w. repeat split; [done..|].
    rewrite Hhead. simpl. rewrite <- app_assoc. reflexivity. }
  destruct (match_at_label _ _ _ Hlabel) as (head' & Hsplit' & ->).
  apply app_inv_tail in Hsplit' as <-.
  by rewrite (lazy_dots_to_end _ (lazy_dots_no_blank_line s3)).
Qed.

Lemma findall_elem m s :
  m ∈ findall s -> exists s' r, match_at s' = Some (m, r).
Proof.
  funelim (findall s); simp findall.
  - by intros ?%elem_of_nil.
  - intros [->|Hin]%elem_of_cons; by eauto.
Qed.

Lemma match_at_starts_with_bracket s m r :
  match_at s = Some (m, r) -> exists m', m = "["%char :: m'.
Proof.
  intros Hm.
  assert (Hs : exists c s3, after_label m = Some (c :: s3)).
  { apply match_at_is_Some. by rewrite (match_at_matched _ _ _ Hm). }
  destruct Hs as (c & s3 & (d & ds & w & _ & _ & ->)%after_label_shape). eauto.
Qed.

(** The strings [re.findall] gives to [extract_references] for a text. *)
Lemma extract_references_matches text :
  matches_nowhere (chars text) = false ->
  extract_references (Some text) = Ret (of_chars <$> findall (chars text)).
Proof.
  intros Hsome. unfold extract_references, re_findall. run_M.
  destruct (findall (chars text)) eqn:Hf; [|done].
  apply matches_nowhere_findall in Hf. congruence.
Qed.

(** X5: the fallback list is unambiguous: [extract_references] returns
    [["No references found."]] exactly when the pattern matches nowhere in
    the text; no text with a reference can produce it. *)
Theorem extract_references_fallback_iff (text : string) :
  extract_references (Some text) = Ret ["No references found."]
  <-> matches_nowhere (chars text) = true.
Proof.
  split.
  - destruct (matches_nowhere (chars text)) eqn:Hn; [done|].
    rewrite (extract_references_matches _ Hn).
    destruct (findall (chars text)) as [|m ms] eqn:Hf.
    { apply matches_nowhere_findall in Hf. congruence. }
    assert (Hin : m ∈ findall (chars text)) by (rewrite Hf; by left).
    destruct (findall_elem _ _ Hin) as (s' & r & Hm).
    destruct (match_at_starts_with_bracket _ _ _ Hm) as [m' ->].
    by intros [=].
  - intros Hn%matches_nowhere_findall.
    unfold extract_references, re_findall. run_M. by rewrite Hn.
Qed.

(** X6: whenever the pattern matches somewhere, every returned string starts
    with a bracketed integer label, a whitespace character and at least one
    more character, and extracting the references of a returned string gives
    back that string alone. *)
Theorem extract_references_each_is_reference (text : string) (refs : list string) :
  matches_nowhere (chars text) = false ->
  extract_references (Some text) = Ret refs ->
  Forall (fun r =>
            (exists c rest, after_label (chars r) = Some (c :: rest))
            /\ extract_references (Some r) = Ret [r]) refs.
Proof.
  intros Hn. rewrite (extract_references_matches _ Hn). intros [= <-].
  apply Forall_fmap, Forall_forall. intros m Hin. simpl.
  destruct (findall_elem _ _ Hin) as (s' & r & Hm).
  pose proof (match_at_matched _ _ _ Hm) as Hmm. rewrite chars_of_chars. split.
  - apply match_at_is_Some. by rewrite Hmm.
  - unfold extract_references, re_findall. run_M. rewrite chars_of_chars.
    rewrite (findall_match _ _ _ Hmm). by simp findall.
Qed.

Lemma extract_references_each_is_reference_witness :
  Forall (fun r =>
            (exists c rest, after_label (chars r) = Some (c :: rest))
            /\ extract_references (Some r) = Ret [r])
    ["[3] above."; "[1] A"].
Proof.
  apply (extract_references_each_is_reference
           (document [Prose "As shown in [3] above."; Entry "[1] A"])).
  - reflexivity.
  - reflexivity.
Defined.

Lemma extract_references_fallback_iff_witness :
  extract_references (Some "Cited in [12], [Smith 2020] and [3]")
  = Ret ["No references found."].
Proof.
  refine (proj2 (extract_references_fallback_iff
                   "Cited in [12], [Smith 2020] and [3]") _).
  reflexivity.
Defined.

Lemma tiles_length s ms : tiles s ms -> sum_list (length <$> ms) <= length s.
Proof.
  induction 1 as [s|c s ms _ IH|m s ms _ IH].
  - simpl. lia.
  - simpl. lia.
  - rewrite fmap_cons, length_app. simpl. lia.
Qed.

Lemma findall_match_length m s :
  m ∈ findall s -> 5 <= length m.
Proof.
  intros (s' & r & Hm)%findall_elem.
  assert (Hs : exists c s3, after_label m = Some (c :: s3)).
  { apply match_at_is_Some. by rewrite (match_at_matched _ _ _ Hm). }
  destruct Hs as (c & s3 & (d & ds & w & _ & _ & ->)%after_label_shape).
  simpl. rewrite length_app. simpl. lia.
Qed.

Lemma findall_total_length s :
  5 * length (findall s) <= sum_list (length <$> findall s).
Proof.
  assert (Hall : Forall (fun m => 5 <= length m) (findall s)).
  { apply Forall_forall. intros m. apply findall_match_length. }
  induction Hall as [|m ms Hm _ IH]; [simpl; lia|].
  rewrite fmap_cons. simpl in *. lia.
Qed.

(** X7: whenever the pattern matches somewhere, the returned strings are
    substrings of the text that follow one another from left to right without
    overlapping; each has at least five characters, so a text of n
    characters gives at most n / 5 references, whose lengths add up to at
    most n. *)
Theorem extract_references_disjoint_substrings (text : string) (refs : list string) :
  matches_nowhere (chars text) = false ->
  extract_references (Some text) = Ret refs ->
  tiles (chars text) (chars <$> refs)
  /\ sum_list (length <$> (chars <$> refs)) <= length (chars text)
  /\ 5 * length refs <= length (chars text).
Proof.
  intros Hn. rewrite (extract_references_matches _ Hn). intros [= <-].
  assert (Hchars : chars <$> (of_chars <$> findall (chars text)) = findall (chars text)).
  { rewrite <- list_fmap_compose. rewrite <- (list_fmap_id (findall (chars text))) at 2.
    apply list_fmap_ext. intros _ m _. apply chars_of_chars. }
  rewrite Hchars, length_fmap.
  pose proof (findall_tiles (chars text)) as Ht.
  pose proof (tiles_length _ _ Ht) as Hlen.
  repeat split; [done..|].
  pose proof (findall_total_length (chars text)). lia.
Qed.

Lemma extract_references_disjoint_substrings_witness :
  5 * length ["[3] above."; "[1] A"]
  <= length (chars (document [Prose "As shown in [3] above."; Entry "[1] A"])).
Proof.
  apply (extract_references_disjoint_substrings
           (document [Prose "As shown in [3] above."; Entry "[1] A"])
           ["[3] above."; "[1] A"]).
  - reflexivity.
  - reflexivity.
Defined.

Lemma findall_skip_no_bracket pre s :
  bool_decide ("["%char ∈ pre) = false -> findall (pre ++ s) = findall s.
Proof.
  intros H%bool_decide_eq_false. induction pre as [|c pre IH]; [done|].
  simpl. rewrite findall_cons, match_at_not_bracket.
  - apply IH. intros Hin. apply H. by right.
  - intros ->. apply H. by left.
Qed.

(** X8: text in front that holds no opening bracket never changes the
    result: the references of [pre + text] are those of [text]. *)
Theorem extract_references_ignores_plain_prefix (pre text : string) :
  bool_decide ("["%char ∈ chars pre) = false ->
  extract_references (Some (pre +:+ text)) = extract_references (Some text).
Proof.
  intros H. unfold extract_references, re_findall. run_M.
  by rewrite chars_app, (findall_skip_no_bracket _ _ H).
Qed.

Lemma extract_references_ignores_plain_prefix_witness :
  extract_references (Some ("References: " +:+ "[1] A. Author, Title."))
  = extract_references (Some "[1] A. Author, Title.").
Proof.
  apply (extract_references_ignores_plain_prefix "References: " "[1] A. Author, Title.").
  reflexivity.
Defined.

(** ** More on the answer generator *)

(** Case analysis on every lookup and library call of [generate_answer]. *)
Ltac generate_answer_cases hub key :=
  unfold generate_answer, generate_answer_try, getitem;
  destruct (models hub !! key) as [?m|];
  destruct (tokenizers hub !! key) as [?tk|];
  run_M;
  repeat match goal with
    | |- context [match ?x with Ret _ => _ | Raise _ => _ end] =>
        let e := fresh "e" in destruct x as [?|e] eqn:?; simpl
    | |- context [if exn_is_Exception ?e then _ else _] =>
        destruct (exn_is_Exception e) eqn:?; simpl
    end.

(** Splits a computed trace into its library calls and its log entry. *)
Ltac split_trace :=
  lazymatch goal with
  | |- exists calls log, [] = _ /\ _ => exists [], []
  | |- exists calls log, [LogError ?m] = _ /\ _ => exists [], [LogError m]
  | |- exists calls log, [?a] = _ /\ _ => exists [a], []
  | |- exists calls log, [?a; LogError ?m] = _ /\ _ => exists [a], [LogError m]
  | |- exists calls log, [?a; ?b] = _ /\ _ => exists [a; b], []
  | |- exists calls log, [?a; ?b; LogError ?m] = _ /\ _ => exists [a; b], [LogError m]
  | |- exists calls log, [?a; ?b; ?c] = _ /\ _ => exists [a; b; c], []
  | |- exists calls log, [?a; ?b; ?c; LogError ?m] = _ /\ _ =>
      exists [a; b; c], [LogError m]
  end.

(** Every call [generate_answer] makes. *)
Lemma generate_answer_events hub key pdf_text question mx mn ev :
  ev ∈ trace (generate_answer hub key pdf_text question mx mn) ->
  ev = CallEncode key (input_text pdf_text question) true 1024
  \/ (exists inputs, ev = CallGenerate key inputs (generation_config mx mn))
  \/ (exists ids, ev = CallDecode key ids true)
  \/ (exists msg,
        ev = LogError ("Error generating answer with " +:+ key +:+ ": " +:+ msg)
        /\ outcome (generate_answer hub key pdf_text question mx mn)
           = Ret ("Error generating answer: " +:+ msg)).
Proof.
  generate_answer_cases hub key; intros Hin;
    repeat (apply elem_of_cons in Hin as [->|Hin]);
    try (by apply elem_of_nil in Hin); eauto 10.
Qed.

(** X9: when the lookups and the three library calls succeed,
    [generate_answer] returns the decoding of the first sequence of the
    generated batch, whatever other sequences the batch holds; it has called
    encode, generate and decode once each, in that order, and logged
    nothing. *)
Theorem generate_answer_success hub key pdf_text question mx mn
    tk m inputs output others answer :
  models hub !! key = Some m ->
  tokenizers hub !! key = Some tk ->
  encode tk (input_text pdf_text question) true 1024 = Ret inputs ->
  generate m inputs (generation_config mx mn) = Ret (output :: others) ->
  decode tk output true = Ret answer ->
  generate_answer hub key pdf_text question mx mn
  = ([CallEncode key (input_text pdf_text question) true 1024;
      CallGenerate key inputs (generation_config mx mn);
      CallDecode key output true],
     Ret answer).
Proof.
  intros Hm Htk He Hg Hd. unfold generate_answer, generate_answer_try.
  rewrite (getitem_Some _ _ _ Hm), (getitem_Some _ _ _ Htk).
  unfold ENCODE_MAX_LENGTH. run_M. rewrite He. simpl. rewrite Hg. simpl.
  by rewrite Hd.
Qed.

Lemma generate_answer_success_witness :
  outcome (generate_answer Sample.hub "gpt2" (Some "Doc.") (Some "Why?")
             DEFAULT_MAX_LENGTH DEFAULT_MIN_LENGTH)
  = Ret ("Research Question: Why?" +:+ newline +:+ newline +:+ "Context: Doc.").
Proof.
  rewrite (generate_answer_success Sample.hub "gpt2" (Some "Doc.") (Some "Why?")
             DEFAULT_MAX_LENGTH DEFAULT_MIN_LENGTH
             Sample.char_tokenizer Sample.echo_model
             ([256] ++ (nat_of_ascii <$> chars (input_text (Some "Doc.") (Some "Why?")))
              ++ [257])
             ([256] ++ (nat_of_ascii <$> chars (input_text (Some "Doc.") (Some "Why?")))
              ++ [257])
             []
             ("Research Question: Why?" +:+ newline +:+ newline +:+ "Context: Doc."));
    reflexivity.
Defined.

(** X10: when the tokenization of the prompt fails, the model is never
    asked to generate and nothing is decoded: the only library call made is
    the encode call, followed by the log entry if the failure derives from
    [Exception]. *)
Theorem generate_answer_tokenization_failure hub key pdf_text question mx mn tk m e :
  models hub !! key = Some m ->
  tokenizers hub !! key = Some tk ->
  tokenize tk (input_text pdf_text question) = Raise e ->
  trace (generate_answer hub key pdf_text question mx mn)
  = CallEncode key (input_text pdf_text question) true 1024
    :: (if exn_is_Exception e
        then [LogError ("Error generating answer with " +:+ key +:+ ": " +:+ exn_str e)]
        else []).
Proof.
  intros Hm Htk He. unfold generate_answer, generate_answer_try.
  rewrite (getitem_Some _ _ _ Hm), (getitem_Some _ _ _ Htk).
  unfold ENCODE_MAX_LENGTH, encode. run_M. rewrite He. simpl.
  by destruct (exn_is_Exception e).
Qed.

Lemma generate_answer_tokenization_failure_witness :
  trace (generate_answer (Sample.hub_failing_tokenizers Sample.out_of_memory)
           "bart" (Some "Doc.") (Some "Why?") DEFAULT_MAX_LENGTH DEFAULT_MIN_LENGTH)
  = [CallEncode "bart" (input_text (Some "Doc.") (Some "Why?")) true 1024;
     LogError "Error generating answer with bart: CUDA out of memory."].
Proof.
  apply (generate_answer_tokenization_failure
           (Sample.hub_failing_tokenizers Sample.out_of_memory)
           "bart" (Some "Doc.") (Some "Why?") DEFAULT_MAX_LENGTH DEFAULT_MIN_LENGTH
           (Sample.broken_tokenizer Sample.out_of_memory) Sample.echo_model
           Sample.out_of_memory);
    reflexivity.
Defined.

(** X11: [generate_answer] writes a log entry only when it returns an error
    string: every log entry in its trace names the model key and carries the
    message that follows ["Error generating answer: "] in the returned
    string. *)
Theorem generate_answer_logs_what_it_returns hub key pdf_text question mx mn msg :
  LogError msg ∈ trace (generate_answer hub key pdf_text question mx mn) ->
  exists failure,
    msg = "Error generating answer with " +:+ key +:+ ": " +:+ failure
    /\ outcome (generate_answer hub key pdf_text question mx mn)
       = Ret ("Error generating answer: " +:+ failure).
Proof.
  intros [H|[[? H]|[[? H]|(failure & H & Hout)]]]%generate_answer_events;
    try discriminate H.
  injection H as ->. eauto.
Qed.

Lemma generate_answer_logs_what_it_returns_witness :
  exists failure,
    "Error generating answer with t5: 't5'"
    = "Error generating answer with " +:+ "t5" +:+ ": " +:+ failure
    /\ outcome (generate_answer Sample.hub "t5" (Some "Doc.") (Some "Why?")
                  DEFAULT_MAX_LENGTH DEFAULT_MIN_LENGTH)
       = Ret ("Error generating answer: " +:+ failure).
Proof.
  apply (generate_answer_logs_what_it_returns Sample.hub "t5" (Some "Doc.") (Some "Why?")
           DEFAULT_MAX_LENGTH DEFAULT_MIN_LENGTH "Error generating answer with t5: 't5'").
  vm_compute. left.
Defined.

(** X12: [generate_answer] calls the library at most three times, always in
    the order encode, generate, decode, a later call only after the earlier
    ones, and then writes at most one log entry; generation always runs with
    five beams, length penalty 1.5, early stopping and the caller's length
    bounds, and decoding always skips special tokens. *)
Theorem generate_answer_call_sequence hub key pdf_text question mx mn :
  exists inputs output calls log,
    trace (generate_answer hub key pdf_text question mx mn) = calls ++ log
    /\ calls `prefix_of`
         [CallEncode key (input_text pdf_text question) true 1024;
          CallGenerate key inputs
            {| max_length := mx; min_length := mn; num_beams := 5;
               length_penalty := 3 # 2; early_stopping := true |};
          CallDecode key output true]
    /\ (log = [] \/ exists msg, log = [LogError msg]).
Proof.
  generate_answer_cases hub key; eexists _, _; split_trace;
    (split; [by rewrite ?app_nil_r|]);
    (split; [eexists; simpl; reflexivity | first [by left | right; by eauto]]).
  Unshelve. all: exact [].
Qed.

(** ** The registries *)

(** X13: the two registries have exactly the keys of [MODEL_NAMES], so a key
    has a tokenizer exactly when it has a model; and every entry was loaded
    from the identifier [MODEL_NAMES] gives for its key, the model with the
    sequence-to-sequence loader for [bart] and with the causal loader
    otherwise. *)
Theorem registries_follow_MODEL_NAMES hub (key : string) :
  (is_Some (tokenizers hub !! key) <-> is_Some (MODEL_NAMES !! key))
  /\ (is_Some (models hub !! key) <-> is_Some (MODEL_NAMES !! key))
  /\ (forall tk, tokenizers hub !! key = Some tk ->
        exists name, MODEL_NAMES !! key = Some name
                     /\ tk = AutoTokenizer_from_pretrained hub name)
  /\ (forall m, models hub !! key = Some m ->
        exists name, MODEL_NAMES !! key = Some name
                     /\ m = if bool_decide (key = "bart")
                            then AutoModelForSeq2SeqLM_from_pretrained hub name
                            else AutoModelForCausalLM_from_pretrained hub name).
Proof.
  destruct (decide (key ∈ configured_keys)) as [Hk|Hk].
  - destruct (configured_key_cases key Hk) as [->|[->| ->]];
      (repeat split; [by eauto| by eauto | by eauto | by eauto | |]);
      intros x Hx; vm_compute in Hx; injection Hx as <-; by eexists.
  - assert (Hn : MODEL_NAMES !! key = None).
    { assert (key <> "bart" /\ key <> "gpt2" /\ key <> "gpt_neo") as (H1 & H2 & H3).
      { repeat split; intros ->; apply Hk, configured_key_intro; tauto. }
      unfold MODEL_NAMES. rewrite !lookup_insert_ne by done.
      by apply lookup_singleton_ne. }
    assert (Ht : tokenizers hub !! key = None).
    { assert (key <> "bart" /\ key <> "gpt2" /\ key <> "gpt_neo") as (H1 & H2 & H3).
      { repeat split; intros ->; apply Hk, configured_key_intro; tauto. }
      unfold tokenizers. rewrite !lookup_insert_ne by done.
      by apply lookup_singleton_ne. }
    rewrite Hn, Ht, (models_lookup_None hub key Hk).
    repeat split; try (by intros [? ?]); by intros.
Qed.

(** ** More on the request handler *)

Lemma store_upload_trace secure_filename (request : Request) :
  trace (store_upload secure_filename (files_file request) (form_pdf_text request))
  = match files_file request with
    | Some f =>
        if allowed_file (filename f)
        then [SaveFile f (os_path_join UPLOAD_FOLDER (secure_filename (filename f)))]
        else []
    | None => []
    end.
Proof.
  unfold store_upload. destruct (files_file request) as [f|]; [|done].
  destruct (upload_accepted_allowed_file f) as [_ Hb].
  destruct (allowed_file (filename f)); [by rewrite Hb|by rewrite andb_false_r].
Qed.

(** Every call made for a request was made for a validated one, and comes
    from the upload step or, the document text being a [str], from one of the
    three [generate_answer] calls. *)
Lemma process_events hub secure_filename (request : Request) ev :
  ev ∈ trace (process hub secure_filename request) ->
  truthy (form_question request) = true
  /\ (ev ∈ trace (store_upload secure_filename (files_file request)
                    (form_pdf_text request))
      \/ exists key,
           key ∈ configured_keys
           /\ is_Some (document_text request)
           /\ ev ∈ trace (generate_answer hub key (document_text request)
                            (form_question request)
                            DEFAULT_MAX_LENGTH DEFAULT_MIN_LENGTH)).
Proof.
  unfold process.
  destruct (truthy (form_question request)) eqn:Hq; simpl.
  2: { by intros ?%elem_of_nil. }
  destruct (negb _). { by intros ?%elem_of_nil. }
  split; [done|]. revert H. unfold answer_request.
  pose proof (store_upload_outcome secure_filename request) as Hs.
  destruct (store_upload secure_filename (files_file request) (form_pdf_text request))
    as [tr0 r0]. unfold outcome in Hs. simpl in Hs. subst r0.
  run_M.
  destruct (document_text request) as [text|] eqn:Htext; simpl.
  2: { rewrite app_nil_r. by left. }
  assert (Hkey : forall key tr r,
            key ∈ configured_keys ->
            generate_answer hub key (Some text) (form_question request)
              DEFAULT_MAX_LENGTH DEFAULT_MIN_LENGTH = (tr, r) ->
            ev ∈ tr ->
            ev ∈ tr0
            \/ exists key, key ∈ configured_keys
                 /\ is_Some (Some text)
                 /\ ev ∈ (generate_answer hub key (Some text) (form_question request)
                            DEFAULT_MAX_LENGTH DEFAULT_MIN_LENGTH).1).
  { intros key tr r Hk Hg Hin. right. exists key. split; [done|].
    split; [by eexists|]. by rewrite Hg. }
  destruct (generate_answer hub "bart" _ _ _ _) as [tr1 r1] eqn:H1.
  destruct r1 as [a1|e1]; simpl.
  2: { intros [?|?]%elem_of_app; [by left|].
       apply (Hkey "bart" _ _ (configured_key_intro _ (or_introl eq_refl)) H1); done. }
  destruct (generate_answer hub "gpt2" _ _ _ _) as [tr2 r2] eqn:H2.
  destruct r2 as [a2|e2]; simpl.
  2: { intros [?|[?|?]%elem_of_app]%elem_of_app; [by left| |].
       - by apply (Hkey "bart" _ _ (configured_key_intro _ (or_introl eq_refl)) H1).
       - by apply (Hkey "gpt2" _ _
                     (configured_key_intro _ (or_intror (or_introl eq_refl))) H2). }
  destruct (generate_answer hub "gpt_neo" _ _ _ _) as [tr3 r3] eqn:H3.
  assert (Hall : ev ∈ tr0 ++ tr1 ++ tr2 ++ tr3 ->
                 ev ∈ tr0
                 \/ exists key, key ∈ configured_keys
                      /\ is_Some (Some text)
                      /\ ev ∈ (generate_answer hub key (Some text) (form_question request)
                                 DEFAULT_MAX_LENGTH DEFAULT_MIN_LENGTH).1).
  { intros [?|[?|[?|?]%elem_of_app]%elem_of_app]%elem_of_app; [by left| | |].
    - by apply (Hkey "bart" _ _ (configured_key_intro _ (or_introl eq_refl)) H1).
    - by apply (Hkey "gpt2" _ _
                  (configured_key_intro _ (or_intror (or_introl eq_refl))) H2).
    - by apply (Hkey "gpt_neo" _ _
                  (configured_key_intro _ (or_intror (or_intror eq_refl))) H3). }
  destruct r3 as [a3|e3]; simpl; [rewrite app_nil_r|]; exact Hall.
Qed.

(** X14: every model is given the same prompt, built from the submitted
    question and the document text, both of them real strings: an encode
    call in the trace of [process] is for a configured model, and its text is
    ["Research Question: " + question + "\n\nContext: " + text] for the
    non-empty question of the request and its document text, truncated at
    1024; the word [None] never stands in for either. *)
Theorem process_prompts hub secure_filename (request : Request) key prompt truncation n :
  CallEncode key prompt truncation n ∈ trace (process hub secure_filename request) ->
  exists question text,
    form_question request = Some question /\ question <> ""
    /\ document_text request = Some text
    /\ prompt = "Research Question: " +:+ question +:+ newline +:+ newline
                +:+ "Context: " +:+ text
    /\ key ∈ configured_keys /\ truncation = true /\ n = 1024.
Proof.
  intros [Hq [Hin|(k & Hk & [text Htext] & Hin)]]%process_events.
  - rewrite store_upload_trace in Hin.
    destruct (files_file request) as [f|]; [|by apply elem_of_nil in Hin].
    destruct (allowed_file (filename f)); [|by apply elem_of_nil in Hin].
    apply elem_of_cons in Hin as [H|Hin]; [discriminate H|by apply elem_of_nil in Hin].
  - destruct (form_question request) as [question|] eqn:Hquestion; [|done].
    exists question, text. rewrite Htext in *.
    apply generate_answer_events
      in Hin as [H|[[? H]|[[? H]|(? & H & _)]]]; try discriminate H.
    injection H as -> -> -> ->. repeat split; try done.
    intros ->. done.
Qed.

Lemma process_prompts_witness :
  exists question text,
    form_question Sample.request_text = Some question /\ question <> ""
    /\ document_text Sample.request_text = Some text
    /\ input_text (Some "A short document.") (Some "What is the main finding?")
       = "Research Question: " +:+ question +:+ newline +:+ newline
         +:+ "Context: " +:+ text
    /\ "gpt2" ∈ configured_keys /\ true = true /\ 1024 = 1024.
Proof.
  apply (process_prompts Sample.hub Sample.secure_filename Sample.request_text).
  vm_compute. do 3 right. left.
Defined.

(** X15: whatever the request, every generation started by [process] runs
    with the default bounds and the fixed search settings: at most 1500 and
    at least 700 tokens, five beams, length penalty 1.5, early stopping. *)
Theorem process_generation_settings hub secure_filename (request : Request)
    key inputs cfg :
  CallGenerate key inputs cfg ∈ trace (process hub secure_filename request) ->
  key ∈ configured_keys
  /\ cfg = {| max_length := 1500; min_length := 700; num_beams := 5;
              length_penalty := 3 # 2; early_stopping := true |}.
Proof.
  intros [Hq [Hin|(k & Hk & _ & Hin)]]%process_events.
  - rewrite store_upload_trace in Hin.
    destruct (files_file request) as [f|]; [|by apply elem_of_nil in Hin].
    destruct (allowed_file (filename f)); [|by apply elem_of_nil in Hin].
    apply elem_of_cons in Hin as [H|Hin]; [discriminate H|by apply elem_of_nil in Hin].
  - apply generate_answer_events
      in Hin as [H|[[? H]|[[? H]|(? & H & _)]]]; try discriminate H.
    by injection H as -> -> ->.
Qed.

Lemma process_generation_settings_witness :
  "bart" ∈ configured_keys
  /\ generation_config DEFAULT_MAX_LENGTH DEFAULT_MIN_LENGTH
     = {| max_length := 1500; min_length := 700; num_beams := 5;
          length_penalty := 3 # 2; early_stopping := true |}.
Proof.
  apply (process_generation_settings Sample.hub Sample.secure_filename
           Sample.request_text "bart"
           ([256] ++ (nat_of_ascii <$> chars (input_text (Some "A short document.")
                                                (Some "What is the main finding?")))
            ++ [257])).
  vm_compute. right. left.
Defined.

(** X16: [process] writes a file only for a validated request whose uploaded
    file has an allowed name, and only under the name
    [os.path.join("uploads", secure_filename(name))]: a request that is
    rejected, or whose file name is not allowed, never reaches the disk. *)
Theorem process_saves_only_allowed_files hub secure_filename (request : Request)
    file filepath :
  SaveFile file filepath ∈ trace (process hub secure_filename request) ->
  truthy (form_question request) = true
  /\ files_file request = Some file
  /\ allowed_file (filename file) = true
  /\ filepath = os_path_join UPLOAD_FOLDER (secure_filename (filename file)).
Proof.
  intros [Hq [Hin|(k & Hk & _ & Hin)]]%process_events.
  - rewrite store_upload_trace in Hin.
    destruct (files_file request) as [f|]; [|by apply elem_of_nil in Hin].
    destruct (allowed_file (filename f)) eqn:Ha; [|by apply elem_of_nil in Hin].
    apply elem_of_cons in Hin as [H|Hin]; [|by apply elem_of_nil in Hin].
    by injection H as -> ->.
  - apply generate_answer_events
      in Hin as [H|[[? H]|[[? H]|(? & H & _)]]]; discriminate H.
Qed.

Lemma process_saves_only_allowed_files_witness :
  truthy (form_question Sample.request_pdf) = true
  /\ files_file Sample.request_pdf = Some {| filename := "paper.PDF" |}
  /\ allowed_file "paper.PDF" = true
  /\ "uploads/paper.PDF" = os_path_join UPLOAD_FOLDER (Sample.secure_filename "paper.PDF").
Proof.
  apply (process_saves_only_allowed_files Sample.hub Sample.secure_filename
           Sample.request_pdf {| filename := "paper.PDF" |} "uploads/paper.PDF").
  vm_compute. left.
Defined.


(** How a validated request ends. *)
Lemma process_validated_cases hub secure_filename (request : Request) :
  truthy (form_question request) = true ->
  truthy (form_pdf_text request) || file_truthy (files_file request) = true ->
  match document_text request with
  | None =>
      outcome (process hub secure_filename request)
      = Raise (TypeError "expected string or bytes-like object, got 'NoneType'")
  | Some text =>
      (exists references bart_answer gpt2_answer gpt_neo_answer,
         extract_references (Some text) = Ret references
         /\ outcome (process hub secure_filename request)
            = Ret (render_template "result.html"
                     {[ "question" := value_of (form_question request);
                        "bart_answer" := VStr bart_answer;
                        "gpt2_answer" := VStr gpt2_answer;
                        "gpt_neo_answer" := VStr gpt_neo_answer;
                        "references" := VList references ]}))
      \/ (exists e,
            outcome (process hub secure_filename request) = Raise e
            /\ exn_is_Exception e = false)
  end.
Proof.
  intros Hq Hv. rewrite (process_validated _ _ _ Hq Hv). unfold answer_request.
  pose proof (store_upload_outcome secure_filename request) as Hs.
  destruct (store_upload secure_filename (files_file request) (form_pdf_text request))
    as [tr0 r0]. unfold outcome in Hs. simpl in Hs. subst r0.
  destruct (document_text request) as [text|]; [|done].
  assert (Hraise : forall key tr e,
            generate_answer hub key (Some text) (form_question request)
              DEFAULT_MAX_LENGTH DEFAULT_MIN_LENGTH = (tr, Raise e) ->
            exn_is_Exception e = false).
  { intros key tr e Hg. apply (generate_answer_Raise hub key (Some text)
      (form_question request) DEFAULT_MAX_LENGTH DEFAULT_MIN_LENGTH).
    by rewrite Hg. }
  run_M.
  destruct (generate_answer hub "bart" _ _ _ _) as [tr1 [a1|e1]] eqn:H1; simpl.
  2: { right. exists e1. split; [done|]. by apply (Hraise _ _ _ H1). }
  destruct (generate_answer hub "gpt2" _ _ _ _) as [tr2 [a2|e2]] eqn:H2; simpl.
  2: { right. exists e2. split; [done|]. by apply (Hraise _ _ _ H2). }
  destruct (generate_answer hub "gpt_neo" _ _ _ _) as [tr3 [a3|e3]] eqn:H3; simpl.
  2: { right. exists e3. split; [done|]. by apply (Hraise _ _ _ H3). }
  left. eexists _, a1, a2, a3. split; reflexivity.
Qed.

(** X17: [process] answers 400 exactly when validation fails, that is when
    the question is missing or empty, or the text field is missing or empty
    and no named file is uploaded; an empty string counts as missing. *)
Theorem process_400_iff hub secure_filename (request : Request) :
  outcome (process hub secure_filename request)
  = Ret (jsonify [("error", "Both question and PDF text are required")] 400)
  <-> truthy (form_question request) = false
      \/ (truthy (form_pdf_text request) = false
          /\ file_truthy (files_file request) = false).
Proof.
  split.
  - destruct (truthy (form_question request)) eqn:Hq; [|by left].
    destruct (truthy (form_pdf_text request) || file_truthy (files_file request))
      eqn:Hv; [|by right; apply orb_false_elim].
    pose proof (process_validated_cases hub secure_filename request Hq Hv) as Hcases.
    destruct (document_text request) as [text|].
    + destruct Hcases as [(refs & a1 & a2 & a3 & _ & ->)|(e & -> & _)]; discriminate.
    + rewrite Hcases. discriminate.
  - unfold process. intros [->|[-> ->]]; [done|]. simpl. by rewrite orb_true_r.
Qed.

Lemma process_400_iff_witness :
  outcome (process Sample.hub Sample.secure_filename
             {| form_question := Some "";
                form_pdf_text := Some "A short document.";
                files_file := None |})
  = Ret (jsonify [("error", "Both question and PDF text are required")] 400).
Proof.
  refine (proj2 (process_400_iff Sample.hub Sample.secure_filename
                   {| form_question := Some "";
                      form_pdf_text := Some "A short document.";
                      files_file := None |}) _).
  left. reflexivity.
Defined.





(** ** The routes *)

(** X20: only a POST on [/process] can reach the tokenizers and models: every
    view registered for GET answers status 200 without making any call,
    whatever the request carries, and the only view registered for POST is
    [process], at [/process]. *)
Theorem routes_reaching_models hub secure_filename (m : method) (path : string) view :
  route hub secure_filename m path = Some view ->
  match m with
  | GET =>
      forall request, exists response,
        view request = ([], Ret response) /\ resp_status response = 200
  | POST => path = "/process" /\ view = process hub secure_filename
  end.
Proof.
  unfold route. destruct m.
  - destruct (bool_decide (path = "/")); [by intros [= <-]; eauto|].
    destruct (bool_decide (path = "/health")); [by intros [= <-]; eauto|done].
  - destruct (bool_decide (path = "/process")) eqn:Hp; [|done].
    apply bool_decide_eq_true in Hp. by intros [= <-].
Qed.

Lemma routes_reaching_models_witness :
  exists response,
    index = ([], Ret response) /\ resp_status response = 200.
Proof.
  exact (routes_reaching_models Sample.hub Sample.secure_filename GET "/"
           (fun _ => index) eq_refl Sample.request_text).
Defined.

Lemma registries_follow_MODEL_NAMES_witness :
  exists name,
    MODEL_NAMES !! "gpt_neo" = Some name
    /\ Sample.echo_model
       = if bool_decide ("gpt_neo" = "bart")
         then AutoModelForSeq2SeqLM_from_pretrained Sample.hub name
         else AutoModelForCausalLM_from_pretrained Sample.hub name.
Proof.
  refine (proj2 (proj2 (proj2 (registries_follow_MODEL_NAMES Sample.hub "gpt_neo")))
            Sample.echo_model _).
  reflexivity.
Defined.
